(** * run_linter.py: the Pine Script lint client

    A shallow embedding of [src/run_linter.py] and the properties of its
    single request/response cycle.

    Python [str] values are sequences of Unicode code points, so text is a
    [list N]; dictionaries are finite maps ([gmap]); the error stream, the
    output stream and the network are an explicit world threaded through
    every call.  What the module calls but does not define ([requests.post],
    [Response.json], [json.dumps] and [open]) is a class of collaborators
    the definitions are parameterised by. *)

From Stdlib Require Import ZArith NArith String Ascii DecimalString List.
From Stdlib Require Import Floats.PrimFloat.
From stdpp Require Import base decidable option list gmap.

Set Warnings "-register-all".

Local Open Scope Z_scope.

(** ** Python text *)

(** A Python [str]: a list of code points. *)
Abbreviation pystr := (list N).

(** An ASCII literal of the source as a [str]. *)
Definition lit (s : string) : pystr :=
  (fun a => N_of_ascii a) <$> list_ascii_of_string s.

(** [str.isspace] on one code point: the code points CPython's
    [Py_UNICODE_ISSPACE] accepts. *)
Definition isspace (c : N) : bool :=
  (((0x09 <=? c) && (c <=? 0x0D)) || ((0x1C <=? c) && (c <=? 0x20))
   || (c =? 0x85) || (c =? 0xA0) || (c =? 0x1680)
   || ((0x2000 <=? c) && (c <=? 0x200A))
   || (c =? 0x2028) || (c =? 0x2029) || (c =? 0x202F) || (c =? 0x205F)
   || (c =? 0x3000))%N.

Fixpoint lstrip (s : pystr) : pystr :=
  match s with
  | [] => []
  | c :: s' => if isspace c then lstrip s' else s
  end.

Definition rstrip (s : pystr) : pystr := rev (lstrip (rev s)).

(** [s.strip()]: leading and trailing whitespace removed. *)
Definition strip (s : pystr) : pystr := rstrip (lstrip s).

(** Truth value of a [str]: non-empty. *)
Definition str_truthy (s : pystr) : bool :=
  match s with [] => false | _ :: _ => true end.

Fixpoint startswith (p s : pystr) : bool :=
  match p, s with
  | [], _ => true
  | _ :: _, [] => false
  | a :: p', b :: s' => (a =? b)%N && startswith p' s'
  end.

(** [needle in hay] on [str]: substring test. *)
Fixpoint contains (needle hay : pystr) : bool :=
  startswith needle hay ||
  match hay with
  | [] => false
  | _ :: hay' => contains needle hay'
  end.

(** [s[:n]] for a non-negative [n]. *)
Definition slice_to (n : nat) (s : pystr) : pystr := take n s.

(** [str(i)] for an [int]. *)
Definition str_of_int (z : Z) : pystr :=
  lit (NilZero.string_of_int (Z.to_int z)).

(** The message contains the fragment as a contiguous run of characters. *)
Definition includes (fragment msg : pystr) : Prop :=
  exists pre post, msg = pre ++ fragment ++ post.

(** ** Python values *)

(** The values the module handles: its argument may be any object, its
    result is [None] or whatever the JSON decoder produced.  A [dict] keeps
    its insertion order. *)
Inductive pyobj : Type :=
| PyNone
| PyBool (b : bool)
| PyInt (i : Z)
| PyFloat (f : float)
| PyStr (s : pystr)
| PyBytes (b : list N)
| PyList (l : list pyobj)
| PyDict (d : list (pystr * pyobj)).

(** [isinstance(x, str)] *)
Definition isinstance_str (x : pyobj) : bool :=
  match x with PyStr _ => true | _ => false end.

(** [bool(x)], the test an [if x:] performs. *)
Definition truthy (x : pyobj) : bool :=
  match x with
  | PyNone => false
  | PyBool b => b
  | PyInt i => negb (i =? 0)
  | PyFloat f => negb (PrimFloat.eqb f PrimFloat.zero)
  | PyStr s => str_truthy s
  | PyBytes b => match b with [] => false | _ => true end
  | PyList l => match l with [] => false | _ => true end
  | PyDict d => match d with [] => false | _ => true end
  end.

(** [str(x)] where the source formats the result of [headers.get(k)]:
    the value, or the text [None]. *)
Definition str_of_optional (o : option pystr) : pystr :=
  match o with Some s => s | None => lit "None" end.

(** ** Exceptions *)

(** The exception classes of [builtins], [json] and [requests.exceptions]
    that the handlers of the module tell apart. *)
Inductive exc_class : Set :=
| BaseException | Exception | KeyboardInterrupt | SystemExit
| OSError | FileNotFoundError | PermissionError | IsADirectoryError
| ValueError | UnicodeError | UnicodeDecodeError | AttributeError
| NameError | RuntimeError | RecursionError
| StdJSONDecodeError
| RequestException | InvalidJSONError | JSONDecodeError | HTTPError
| ConnectionError | ProxyError | SSLError
| RequestsTimeout | ConnectTimeout | ReadTimeout
| TooManyRedirects | InvalidURL | ChunkedEncodingError.

#[global] Instance exc_class_eq_dec : EqDecision exc_class.
Proof. solve_decision. Defined.

(** Direct base classes, as declared in CPython and in
    [requests/exceptions.py]. *)
Definition bases (c : exc_class) : list exc_class :=
  match c with
  | BaseException => []
  | Exception | KeyboardInterrupt | SystemExit => [BaseException]
  | OSError | ValueError | AttributeError | NameError | RuntimeError =>
      [Exception]
  | RecursionError => [RuntimeError]
  | FileNotFoundError | PermissionError | IsADirectoryError => [OSError]
  | UnicodeError | StdJSONDecodeError => [ValueError]
  | UnicodeDecodeError => [UnicodeError]
  | RequestException => [OSError]
  | InvalidJSONError | HTTPError | ConnectionError | RequestsTimeout
  | TooManyRedirects | ChunkedEncodingError => [RequestException]
  | JSONDecodeError => [InvalidJSONError; StdJSONDecodeError]
  | ProxyError | SSLError => [ConnectionError]
  | ConnectTimeout => [ConnectionError; RequestsTimeout]
  | ReadTimeout => [RequestsTimeout]
  | InvalidURL => [RequestException; ValueError]
  end.

Fixpoint issubclass_upto (depth : nat) (c d : exc_class) : bool :=
  bool_decide (c = d) ||
  match depth with
  | O => false
  | S depth' => existsb (fun b => issubclass_upto depth' b d) (bases c)
  end.

(** [issubclass(c, d)]; no class of the table is deeper than six levels. *)
Definition issubclass (c d : exc_class) : bool := issubclass_upto 6 c d.

(** ** Requests, responses and raised exceptions *)

(** A [dict] display [{k1: v1, ..., kn: vn}]: the entries are stored from
    left to right, a later one replacing an earlier one with the same key. *)
Definition dict_display (entries : list (pystr * pystr)) : gmap (list N) (list N) :=
  fold_left (fun d kv => <[kv.1 := kv.2]> d) entries ∅.

(** The arguments of one [requests.post(url, headers=, data=, timeout=)]. *)
Record Request : Type := mkRequest {
  req_url : pystr;
  req_headers : gmap (list N) (list N);
  req_data : gmap (list N) (list N);
  req_timeout : Z
}.

(** [str.lower] on the ASCII letters; header field names are ASCII tokens. *)
Definition lower (s : pystr) : pystr :=
  (fun c => if ((0x41 <=? c) && (c <=? 0x5A))%N then (c + 0x20)%N else c) <$> s.

(** The attributes of a [requests.Response] the module reads.  [headers] is
    the store of a [CaseInsensitiveDict]: lower-cased field name to the field
    name as received and its value. *)
Record Response : Type := mkResponse {
  status_code : Z;
  reason : pystr;
  url : pystr;
  headers : gmap (list N) (list N * list N);
  text : pystr
}.

(** [CaseInsensitiveDict(pairs)] *)
Definition CaseInsensitiveDict (entries : list (pystr * pystr))
  : gmap (list N) (list N * list N) :=
  fold_left (fun d kv => <[lower kv.1 := (kv.1, kv.2)]> d) entries ∅.

(** [response.headers.get(key)]: the value, or [None]. *)
Definition headers_get (r : Response) (key : pystr) : option pystr :=
  snd <$> headers r !! lower key.

(** [response.headers.get(key, default)] *)
Definition headers_get_default (r : Response) (key default : pystr) : pystr :=
  from_option id default (headers_get r key).

(** A raised exception: its class, [str(e)], and the [response] attribute
    that instances of [RequestException] carry ([None] unless given). *)
Record exc : Type := mkExc {
  exc_cls : exc_class;
  exc_str : pystr;
  exc_response : option Response
}.

(** [isinstance(e, c)], the test of an [except c] clause. *)
Definition isinstance (e : exc) (c : exc_class) : bool :=
  issubclass (exc_cls e) c.

(** A call either returns a value or raises. *)
Inductive outcome (A : Type) : Type :=
| Return (a : A)
| Raise (e : exc).
Arguments Return {A} a.
Arguments Raise {A} e.

(** [Response.raise_for_status()]: an [HTTPError] carrying the response for
    the client-error and server-error classes of status code, nothing
    otherwise. *)
Definition raise_for_status (r : Response) : option exc :=
  if (400 <=? status_code r) && (status_code r <? 500) then
    Some (mkExc HTTPError
            (str_of_int (status_code r) ++ lit " Client Error: " ++ reason r
             ++ lit " for url: " ++ url r)
            (Some r))
  else if (500 <=? status_code r) && (status_code r <? 600) then
    Some (mkExc HTTPError
            (str_of_int (status_code r) ++ lit " Server Error: " ++ reason r
             ++ lit " for url: " ++ url r)
            (Some r))
  else None.

(** What [response.json()] raises when it does not return: requests'
    [JSONDecodeError] for a body that is not JSON, or whatever else the
    decoder raises on the way (a [RecursionError] on a deeply nested body, a
    [ValueError] on an integer literal beyond the digit limit, ...).  The
    call raises within [Exception], and never an [HTTPError]. *)
Record decode_failure : Type := mkDecodeFailure {
  raised : exc;
  raised_Exception : isinstance raised Exception = true;
  raised_not_HTTPError : isinstance raised HTTPError = false
}.

(** The collaborators the module calls and does not define: the HTTP
    transport, the JSON codec and the file system. *)
Class Collaborators : Type := {
  (** [requests.post(...)]: a response of any status, or an exception *)
  requests_post : Request -> outcome Response;
  (** [response.json()]: the decoded document, or the exception raised *)
  Response_json : Response -> pyobj + decode_failure;
  (** [json.dumps(obj, indent=n)] *)
  json_dumps : pyobj -> Z -> pystr;
  (** [open(path, 'r')] followed by [f.read()] *)
  open_read : pystr -> outcome pystr
}.

(** ** The world: both output streams and the network *)

(** What a run leaves behind: the text of each [print] to [sys.stdout] and
    to [sys.stderr], and each request handed to the transport, oldest
    first. *)
Record World : Type := mkWorld {
  stdout : list pystr;
  stderr : list pystr;
  network : list Request
}.

Definition empty_world : World := mkWorld [] [] [].

(** A computation reads and extends the world and returns or raises. *)
Definition M (A : Type) : Type := World -> outcome A * World.

Definition ret {A} (a : A) : M A := fun w => (Return a, w).

Definition raise {A} (e : exc) : M A := fun w => (Raise e, w).

Definition bind {A B} (c : M A) (k : A -> M B) : M B :=
  fun w =>
    match c w with
    | (Return a, w') => k a w'
    | (Raise e, w') => (Raise e, w')
    end.

Notation "x <- c ;; k" := (bind c (fun x => k))
  (at level 100, c at next level, right associativity).
Notation "c ;;; k" := (bind c (fun _ => k))
  (at level 100, right associativity).

(** [print(line)] *)
Definition print_stdout (line : pystr) : M unit :=
  fun w => (Return tt, mkWorld (stdout w ++ [line]) (stderr w) (network w)).

(** [print(line, file=sys.stderr)] *)
Definition print_stderr (line : pystr) : M unit :=
  fun w => (Return tt, mkWorld (stdout w) (stderr w ++ [line]) (network w)).

(** ** Diagnostics *)

(** The failure taxonomy of the specification. *)
Inductive kind : Set :=
| InvalidInput | TransportError | HttpStatusError | UnexpectedContentType
| MalformedResponse | UnknownError | FileAccess | UsageError.

(** One constructor per [print(..., file=sys.stderr)] of the module, with
    the values its message is formatted from. *)
Inductive diagnostic : Type :=
| NotAString
| EmptyContent
| BadContentType (declared : option pystr) (body : pystr)
| HttpStatus (code : Z) (body : pystr)
| JsonDecode (err : pystr) (body : pystr)
| RequestFailed (err : pystr)
| Unexpected (err : pystr)
| FileMissing (path : pystr)
| FileFailed (err : pystr)
| Usage.

Definition kind_of (d : diagnostic) : kind :=
  match d with
  | NotAString | EmptyContent => InvalidInput
  | BadContentType _ _ => UnexpectedContentType
  | HttpStatus _ _ => HttpStatusError
  | JsonDecode _ _ => MalformedResponse
  | RequestFailed _ => TransportError
  | Unexpected _ => UnknownError
  | FileMissing _ | FileFailed _ => FileAccess
  | Usage => UsageError
  end.

(** The text each site prints. *)
Definition render (d : diagnostic) : pystr :=
  match d with
  | NotAString => lit "Error: script_content must be a string."
  | EmptyContent => lit "Error: script_content cannot be empty."
  | BadContentType declared body =>
      lit "Error: Unexpected content type '" ++ str_of_optional declared
      ++ lit "'. Response text: " ++ body
  | HttpStatus code body =>
      lit "HTTP error during linting: " ++ str_of_int code ++ lit " - " ++ body
  | JsonDecode err body =>
      lit "JSON decode error during linting: " ++ err
      ++ lit ". Response text: " ++ body
  | RequestFailed err => lit "Request exception during linting: " ++ err
  | Unexpected err => lit "An unexpected error occurred: " ++ err
  | FileMissing path => lit "Error: File not found at " ++ path
  | FileFailed err =>
      lit "An error occurred while processing the file: " ++ err
  | Usage => lit "Usage: python run_linter.py <path_to_pine_script_file>"
  end.

Definition report (d : diagnostic) : M unit := print_stderr (render d).

(** ** The module *)

Definition LINT_URL : pystr :=
  lit "https://pine-facade.tradingview.com/pine-facade/translate_light?user_name=Guest&v=3".

Definition DEFAULT_USER_AGENT : pystr :=
  lit "Mozilla/5.0 (Windows NT 10.0; Win64; x64) AppleWebKit/537.36 (KHTML, like Gecko) Chrome/120.0.0.0 Safari/537.36 PineLinterMini/1.0".

(** The local [headers] of [lint_pine_script]. *)
Definition request_headers (user_agent : pystr) : gmap (list N) (list N) :=
  dict_display
    [ (lit "User-Agent", user_agent);
      (lit "Content-Type", lit "application/x-www-form-urlencoded;charset=UTF-8");
      (lit "Accept", lit "application/json, text/plain, */*");
      (lit "Origin", lit "https://www.tradingview.com");
      (lit "Referer", lit "https://www.tradingview.com/") ].

(** The local [data] of [lint_pine_script]. *)
Definition request_data (script_content : pystr) : gmap (list N) (list N) :=
  dict_display [ (lit "source", script_content) ].

(** The request [lint_pine_script] hands to [requests.post]. *)
Definition outbound (script_content user_agent : pystr) : Request :=
  mkRequest LINT_URL (request_headers user_agent) (request_data script_content) 20.

Section Linter.
Context {services : Collaborators}.

(** The call of the transport: the request goes out, then the transport
    answers. *)
Definition post (req : Request) : World -> outcome Response * World :=
  fun w =>
    (requests_post req, mkWorld (stdout w) (stderr w) (network w ++ [req])).

(** [response.json()] as a call: the document, or the exception. *)
Definition json (response : Response) : outcome pyobj :=
  match Response_json response with
  | inl document => Return document
  | inr failure => Raise (raised failure)
  end.

(** The test [if 'application/json' in response.headers.get('Content-Type', '')]. *)
Definition declares_json (response : Response) : bool :=
  contains (lit "application/json")
    (headers_get_default response (lit "Content-Type") []).

(** The [try] suite of [lint_pine_script].  Besides the outcome it yields
    the local [response], bound once [requests.post] has returned. *)
Definition try_suite (headers data : gmap (list N) (list N))
  : World -> option Response * outcome pyobj * World :=
  fun w =>
    match post (mkRequest LINT_URL headers data 20) w with
    | (Raise e, w1) => (None, Raise e, w1)
    | (Return response, w1) =>
        match raise_for_status response with
        | Some e => (Some response, Raise e, w1)
        | None =>
            if declares_json response
            then (Some response, json response, w1)
            else
              (Some response, Return PyNone,
               snd (report (BadContentType
                              (headers_get response (lit "Content-Type"))
                              (slice_to 200 (text response))) w1))
        end
    end.

(** The [except] clauses, tried in order on the exception the suite raised.
    [response] is the local variable, unbound when [requests.post] itself
    raised.  An exception no clause matches propagates. *)
Definition except_clauses (e : exc) (response : option Response) : M unit :=
  if isinstance e HTTPError then
    match exc_response e with
    | Some r => report (HttpStatus (status_code r) (slice_to 200 (text r)))
    | None =>
        raise (mkExc AttributeError
                 (lit "'NoneType' object has no attribute 'status_code'") None)
    end
  else if isinstance e JSONDecodeError then
    report (JsonDecode (exc_str e)
              (match response with
               | Some r => slice_to 200 (text r)
               | None => lit "N/A"
               end))
  else if isinstance e RequestException then
    report (RequestFailed (exc_str e))
  else if isinstance e Exception then
    report (Unexpected (exc_str e))
  else raise e.

(** [lint_pine_script(script_content, user_agent=DEFAULT_USER_AGENT)].
    The [match] is the [isinstance(script_content, str)] test; the local
    [headers] and [data] are built anew by every call. *)
Definition lint_pine_script (script_content : pyobj) (user_agent : pystr)
  : M pyobj :=
  match script_content with
  | PyStr script =>
      if negb (str_truthy (strip script)) then
        report EmptyContent ;;; ret PyNone
      else
        let headers := request_headers user_agent in
        let data := request_data script in
        fun w =>
          match try_suite headers data w with
          | (_, Return result, w') => (Return result, w')
          | (response, Raise e, w') =>
              (except_clauses e response ;;; ret PyNone) w'
          end
  | _ => report NotAString ;;; ret PyNone
  end.

(** The [try] suite of the command-line entry point. *)
Definition main_suite (file_path : pystr) : M unit :=
  script_content <- (fun w => (open_read file_path, w)) ;;
  lint_result <- lint_pine_script (PyStr script_content) DEFAULT_USER_AGENT ;;
  if truthy lint_result then print_stdout (json_dumps lint_result 4)
  else ret tt.

(** The [if __name__ == "__main__":] block, given [sys.argv]. *)
Definition main (argv : list pystr) : M unit :=
  if (1 <? length argv)%nat then
    let file_path := nth 1 argv [] in
    fun w =>
      match main_suite file_path w with
      | (Return _, w') => (Return tt, w')
      | (Raise e, w') =>
          if isinstance e FileNotFoundError then report (FileMissing file_path) w'
          else if isinstance e Exception then report (FileFailed (exc_str e)) w'
          else (Raise e, w')
      end
  else report Usage.

End Linter.

(** ** Simulated collaborators

    Stand-ins for the transport, the codec and the file system, used to
    run the module on concrete inputs. *)

(** The double quote. *)
Definition dq : pystr := [34%N].

(** The line feed. *)
Definition nl : pystr := [10%N].

(** A transport that answers every request with the same response. *)
Definition answering (r : Response) : Request -> outcome Response :=
  fun _ => Return r.

(** A transport that fails every request with the same exception. *)
Definition failing (e : exc) : Request -> outcome Response :=
  fun _ => Raise e.

(** The text of the error [json.loads] reports on a body that does not
    start a JSON value. *)
Definition expecting_value : pystr :=
  lit "Expecting value: line 1 column 1 (char 0)".

(** The [JSONDecodeError] of a body that does not start a JSON value. *)
Definition not_json : decode_failure :=
  mkDecodeFailure (mkExc JSONDecodeError expecting_value None) eq_refl eq_refl.

(** A body nested deeper than the decoder can follow, and the
    [RecursionError] it raises on it. *)
Definition deep_body : pystr := replicate 3000 91%N.

Definition too_deep : decode_failure :=
  mkDecodeFailure
    (mkExc RecursionError
       (lit "maximum recursion depth exceeded while decoding a JSON array from a unicode string")
       None)
    eq_refl eq_refl.

(** A decoder that knows the bodies of a table, gives up on the deep body
    and rejects every other. *)
Definition decoding (table : list (pystr * pyobj)) (r : Response)
  : pyobj + decode_failure :=
  match list_find (fun entry => entry.1 = text r) table with
  | Some (_, (_, document)) => inl document
  | None => if bool_decide (text r = deep_body) then inr too_deep
            else inr not_json
  end.

Definition spaces (n : nat) : pystr := replicate n 32%N.

(** A printer in the layout of [json.dumps(obj, indent=n)] for documents of
    [None], booleans, integers, plain strings, lists and objects, which is
    what the examples use; a float or a byte string prints as [null]. *)
Fixpoint dumps_level (step level : nat) (v : pyobj) : pystr :=
  match v with
  | PyNone | PyFloat _ | PyBytes _ => lit "null"
  | PyBool true => lit "true"
  | PyBool false => lit "false"
  | PyInt i => str_of_int i
  | PyStr s => dq ++ s ++ dq
  | PyList [] => lit "[]"
  | PyList (x :: l) =>
      lit "[" ++ nl ++ spaces (step * S level) ++ dumps_level step (S level) x
      ++ (fix rest (l : list pyobj) : pystr :=
            match l with
            | [] => []
            | y :: l' =>
                lit "," ++ nl ++ spaces (step * S level)
                ++ dumps_level step (S level) y ++ rest l'
            end) l
      ++ nl ++ spaces (step * level) ++ lit "]"
  | PyDict [] => lit "{}"
  | PyDict ((k, x) :: d) =>
      lit "{" ++ nl ++ spaces (step * S level) ++ dq ++ k ++ dq ++ lit ": "
      ++ dumps_level step (S level) x
      ++ (fix rest (d : list (pystr * pyobj)) : pystr :=
            match d with
            | [] => []
            | (k', y) :: d' =>
                lit "," ++ nl ++ spaces (step * S level) ++ dq ++ k' ++ dq
                ++ lit ": " ++ dumps_level step (S level) y ++ rest d'
            end) d
      ++ nl ++ spaces (step * level) ++ lit "}"
  end.

Definition dumping (v : pyobj) (indent : Z) : pystr :=
  dumps_level (Z.to_nat indent) 0 v.

(** A file system holding the files of a table; any other path is missing. *)
Definition holding (files : list (pystr * pystr)) (path : pystr)
  : outcome pystr :=
  match list_find (fun entry => entry.1 = path) files with
  | Some (_, (_, content)) => Return content
  | None =>
      Raise (mkExc FileNotFoundError
               (lit "[Errno 2] No such file or directory: '" ++ path ++ lit "'")
               None)
  end.

(** The body [{"result": "ok"}] and the document it encodes. *)
Definition ok_body : pystr :=
  lit "{" ++ dq ++ lit "result" ++ dq ++ lit ": " ++ dq ++ lit "ok" ++ dq
  ++ lit "}".

Definition ok_document : pyobj := PyDict [(lit "result", PyStr (lit "ok"))].

Definition known_bodies : list (pystr * pyobj) :=
  [ (ok_body, ok_document); (lit "{}", PyDict []); (lit "null", PyNone) ].

Definition a_script : pystr := lit "strategy() => ...".

Definition a_path : pystr := lit "script.pine".

Definition a_response (code : Z) (content_type body : pystr) : Response :=
  mkResponse code (lit "") LINT_URL
    (CaseInsensitiveDict [(lit "Content-Type", content_type)]) body.

Definition json_type : pystr := lit "application/json".

(** The answers of the service the examples run against. *)
Definition ok_response : Response := a_response 200 json_type ok_body.

Definition empty_response : Response := a_response 200 json_type (lit "{}").

Definition html_response : Response :=
  a_response 200 (lit "text/html") (lit "<html>...</html>").

Definition garbled_response : Response :=
  a_response 200 json_type (lit "not json").

Definition deep_response : Response := a_response 200 json_type deep_body.

Definition error_response : Response :=
  a_response 500 (lit "text/plain") (lit "server error details...").

Definition garbled_error_response : Response :=
  a_response 500 json_type (lit "not json").

Definition choices_response : Response := a_response 300 json_type ok_body.

(** The exceptions the examples raise. *)
Definition interrupt : exc := mkExc KeyboardInterrupt [] None.

Definition surprise : exc := mkExc ValueError (lit "boom") None.

Definition read_timeout : exc :=
  mkExc ReadTimeout (lit "Read timed out. (read timeout=20)") None.

(** The services around one fixed transport. *)
Definition simulated (transport : Request -> outcome Response) : Collaborators :=
  {| requests_post := transport;
     Response_json := decoding known_bodies;
     json_dumps := dumping;
     open_read := holding [(a_path, a_script)] |}.

(** A server that needs [latency] seconds to answer, seen through a
    transport that gives up once the timeout of the request has elapsed. *)
Definition slow (latency : Z) (r : Response) : Request -> outcome Response :=
  fun req =>
    if req_timeout req <? latency then
      Raise (mkExc ReadTimeout
               (lit "Read timed out. (read timeout=" ++ str_of_int (req_timeout req)
                ++ lit ")")
               None)
    else Return r.

(** [w] with more text on the error stream and more requests sent. *)
Definition extended (w : World) (errors : list pystr) (sent : list Request)
  : World :=
  mkWorld (stdout w) (stderr w ++ errors) (network w ++ sent).

(** [w] after one more request went out. *)
Definition sent (w : World) (req : Request) : World :=
  mkWorld (stdout w) (stderr w) (network w ++ [req]).

(** [w] after one more diagnostic was printed. *)
Definition reported (w : World) (d : diagnostic) : World :=
  mkWorld (stdout w) (stderr w ++ [render d]) (network w).

(** A computation that only adds to the error stream and to the requests
    sent, and decides nothing by the world it starts in. *)
Definition appends {A} (c : M A) : Prop :=
  exists result errors requests,
    forall w, c w = (result, extended w errors requests).

(** The request the examples send. *)
Definition the_request : Request := outbound a_script DEFAULT_USER_AGENT.

(** [w] after one more line was printed to standard output. *)
Definition printed (w : World) (line : pystr) : World :=
  mkWorld (stdout w ++ [line]) (stderr w) (network w).

(** The [AttributeError] of [e.response.status_code] when [e.response] is
    [None]. *)
Definition missing_status_code : exc :=
  mkExc AttributeError
    (lit "'NoneType' object has no attribute 'status_code'") None.

Section Runs.
Context {services : Collaborators}.

(** The ways a call of [lint_pine_script] can go, one constructor per path
    through the function: the guard that stopped it, or the branch of the
    [try] statement and the [except] clause that ended it. *)
Inductive lint_run (script_content : pyobj) (user_agent : pystr) (w : World)
  : outcome pyobj * World -> Prop :=
| run_not_a_string :
    isinstance_str script_content = false ->
    lint_run script_content user_agent w (Return PyNone, reported w NotAString)
| run_blank script :
    script_content = PyStr script -> strip script = [] ->
    lint_run script_content user_agent w (Return PyNone, reported w EmptyContent)
| run_document script response document :
    script_content = PyStr script -> strip script <> [] ->
    requests_post (outbound script user_agent) = Return response ->
    raise_for_status response = None ->
    declares_json response = true ->
    Response_json response = inl document ->
    lint_run script_content user_agent w
      (Return document, sent w (outbound script user_agent))
| run_content_type script response :
    script_content = PyStr script -> strip script <> [] ->
    requests_post (outbound script user_agent) = Return response ->
    raise_for_status response = None ->
    declares_json response = false ->
    lint_run script_content user_agent w
      (Return PyNone,
       reported (sent w (outbound script user_agent))
         (BadContentType (headers_get response (lit "Content-Type"))
            (slice_to 200 (text response))))
| run_status script response e :
    script_content = PyStr script -> strip script <> [] ->
    requests_post (outbound script user_agent) = Return response ->
    raise_for_status response = Some e ->
    lint_run script_content user_agent w
      (Return PyNone,
       reported (sent w (outbound script user_agent))
         (HttpStatus (status_code response) (slice_to 200 (text response))))
| run_undecodable script response failure :
    script_content = PyStr script -> strip script <> [] ->
    requests_post (outbound script user_agent) = Return response ->
    raise_for_status response = None ->
    declares_json response = true ->
    Response_json response = inr failure ->
    isinstance (raised failure) JSONDecodeError = true ->
    lint_run script_content user_agent w
      (Return PyNone,
       reported (sent w (outbound script user_agent))
         (JsonDecode (exc_str (raised failure)) (slice_to 200 (text response))))
| run_decoder_request script response failure :
    script_content = PyStr script -> strip script <> [] ->
    requests_post (outbound script user_agent) = Return response ->
    raise_for_status response = None ->
    declares_json response = true ->
    Response_json response = inr failure ->
    isinstance (raised failure) JSONDecodeError = false ->
    isinstance (raised failure) RequestException = true ->
    lint_run script_content user_agent w
      (Return PyNone,
       reported (sent w (outbound script user_agent))
         (RequestFailed (exc_str (raised failure))))
| run_decoder_other script response failure :
    script_content = PyStr script -> strip script <> [] ->
    requests_post (outbound script user_agent) = Return response ->
    raise_for_status response = None ->
    declares_json response = true ->
    Response_json response = inr failure ->
    isinstance (raised failure) RequestException = false ->
    lint_run script_content user_agent w
      (Return PyNone,
       reported (sent w (outbound script user_agent))
         (Unexpected (exc_str (raised failure))))
| run_raised_status script e r :
    script_content = PyStr script -> strip script <> [] ->
    requests_post (outbound script user_agent) = Raise e ->
    isinstance e HTTPError = true -> exc_response e = Some r ->
    lint_run script_content user_agent w
      (Return PyNone,
       reported (sent w (outbound script user_agent))
         (HttpStatus (status_code r) (slice_to 200 (text r))))
| run_handler_failed script e :
    script_content = PyStr script -> strip script <> [] ->
    requests_post (outbound script user_agent) = Raise e ->
    isinstance e HTTPError = true -> exc_response e = None ->
    lint_run script_content user_agent w
      (Raise missing_status_code, sent w (outbound script user_agent))
| run_raised_decode script e :
    script_content = PyStr script -> strip script <> [] ->
    requests_post (outbound script user_agent) = Raise e ->
    isinstance e HTTPError = false -> isinstance e JSONDecodeError = true ->
    lint_run script_content user_agent w
      (Return PyNone,
       reported (sent w (outbound script user_agent))
         (JsonDecode (exc_str e) (lit "N/A")))
| run_raised_request script e :
    script_content = PyStr script -> strip script <> [] ->
    requests_post (outbound script user_agent) = Raise e ->
    isinstance e HTTPError = false -> isinstance e JSONDecodeError = false ->
    isinstance e RequestException = true ->
    lint_run script_content user_agent w
      (Return PyNone,
       reported (sent w (outbound script user_agent)) (RequestFailed (exc_str e)))
| run_raised_other script e :
    script_content = PyStr script -> strip script <> [] ->
    requests_post (outbound script user_agent) = Raise e ->
    isinstance e RequestException = false -> isinstance e Exception = true ->
    lint_run script_content user_agent w
      (Return PyNone,
       reported (sent w (outbound script user_agent)) (Unexpected (exc_str e)))
| run_propagated script e :
    script_content = PyStr script -> strip script <> [] ->
    requests_post (outbound script user_agent) = Raise e ->
    isinstance e Exception = false ->
    lint_run script_content user_agent w
      (Raise e, sent w (outbound script user_agent)).

(** The [except] clauses of the entry point, on the exception its [try]
    suite raised. *)
Definition main_clauses (file_path : pystr) (e : exc) : M unit :=
  fun w =>
    if isinstance e FileNotFoundError then report (FileMissing file_path) w
    else if isinstance e Exception then report (FileFailed (exc_str e)) w
    else (Raise e, w).

(** The [NameError] of the expression statement [EOF] that ends the file. *)
Definition EOF_undefined : exc :=
  mkExc NameError (lit "name 'EOF' is not defined") None.

(** The module run as a script ([python run_linter.py ...]): the imports,
    the two constants and the [def] have no effect on the world, then comes
    the [if __name__ == "__main__":] block, then the last line of the file,
    the name [EOF], which is bound nowhere.  An outcome [Raise e] is an
    exception that leaves the module; what the interpreter then writes (the
    traceback) is not the module's output. *)
Definition run_linter (argv : list pystr) : M unit :=
  main argv ;;; raise EOF_undefined.

End Runs.


Definition untyped_response : Response :=
  mkResponse 200 (lit "OK") LINT_URL (CaseInsensitiveDict []) ok_body.

Definition unavailable_response : Response :=
  mkResponse 503 (lit "Service Unavailable") LINT_URL
    (CaseInsensitiveDict [(lit "Content-Type", lit "text/html")])
    (replicate 5000 120%N).

Definition bare_http_error : exc := mkExc HTTPError (lit "boom") None.

Definition stray_decode_error : exc :=
  mkExc JSONDecodeError expecting_value None.

Definition too_many_redirects : exc :=
  mkExc TooManyRedirects (lit "Exceeded 30 redirects.") None.

Definition permission_denied : exc :=
  mkExc PermissionError (lit "[Errno 13] Permission denied: 'script.pine'") None.

(** The services around one transport and a file system that refuses every
    read. *)
Definition locked (transport : Request -> outcome Response) : Collaborators :=
  {| requests_post := transport;
     Response_json := decoding known_bodies;
     json_dumps := dumping;
     open_read := fun _ => Raise permission_denied |}.

Definition program : pystr := lit "run_linter.py".

(** * Properties *)

(** ** Text *)

Lemma lstrip_nil (s : pystr) : lstrip s = [] <-> forallb isspace s = true.
Proof.
  induction s as [|c s IH]; simpl; [tauto|].
  destruct (isspace c); simpl; [exact IH|].
  split; discriminate.
Qed.

Lemma lstrip_head (s : pystr) c t : lstrip s = c :: t -> isspace c = false.
Proof.
  induction s as [|a s IH]; simpl; [discriminate|].
  destruct (isspace a) eqn:Ha; [exact IH|].
  intros [= -> _]. exact Ha.
Qed.

Lemma forallb_rev (f : N -> bool) (s : pystr) :
  forallb f (rev s) = true <-> forallb f s = true.
Proof.
  rewrite !forallb_forall. split; intros H x Hx; apply H.
  - rewrite <- in_rev. exact Hx.
  - rewrite in_rev. exact Hx.
Qed.

(** [s.strip()] is empty exactly when every character of [s] is
    whitespace. *)
Lemma strip_nil (s : pystr) : strip s = [] <-> forallb isspace s = true.
Proof.
  unfold strip, rstrip. split.
  - intros H.
    assert (Hr : lstrip (rev (lstrip s)) = []).
    { destruct (lstrip (rev (lstrip s))) as [|a l] eqn:E; [reflexivity|].
      simpl in H. destruct (rev l); discriminate. }
    apply lstrip_nil in Hr. apply (proj1 (forallb_rev _ _)) in Hr.
    destruct (lstrip s) as [|c t] eqn:E; [apply lstrip_nil, E|].
    apply lstrip_head in E. cbn [forallb] in Hr. rewrite E in Hr. discriminate.
  - intros H. apply lstrip_nil in H. rewrite H. reflexivity.
Qed.

Lemma blank_script (s : pystr) :
  negb (str_truthy (strip s)) = true <-> forallb isspace s = true.
Proof.
  rewrite <- strip_nil. destruct (strip s); simpl; split; congruence.
Qed.

Lemma startswith_app (p s : pystr) :
  startswith p s = true <-> exists t, s = p ++ t.
Proof.
  revert s. induction p as [|a p IH]; intros s; simpl.
  - split; [eauto|reflexivity].
  - destruct s as [|b s].
    + split; [discriminate|]. intros [t Ht]. discriminate.
    + rewrite andb_true_iff, N.eqb_eq, IH. split.
      * intros [-> [t ->]]. eauto.
      * intros [t [= -> ->]]. eauto.
Qed.

(** The [in] test on text decides [includes]. *)
Lemma contains_includes (needle hay : pystr) :
  contains needle hay = true <-> includes needle hay.
Proof.
  unfold includes. induction hay as [|c hay IH]; simpl.
  - rewrite orb_false_r, startswith_app. split.
    + intros [t Ht]. exists [], t. exact Ht.
    + intros (pre & post & H). symmetry in H.
      apply app_eq_nil in H as [-> H]. eauto.
  - rewrite orb_true_iff, startswith_app, IH. split.
    + intros [[t Ht]|(pre & post & H)].
      * exists [], t. exact Ht.
      * exists (c :: pre), post. simpl. congruence.
    + intros ([|a pre] & post & H); simpl in H.
      * left. eauto.
      * right. injection H as _ H. eauto.
Qed.

Lemma includes_between (pre x post : pystr) : includes x (pre ++ x ++ post).
Proof. exists pre, post. reflexivity. Qed.

Lemma includes_last (pre x : pystr) : includes x (pre ++ x).
Proof. exists pre, []. rewrite app_nil_r. reflexivity. Qed.

Lemma includes_under (pre x y : pystr) : includes x y -> includes x (pre ++ y).
Proof.
  intros (a & b & ->). exists (pre ++ a), b. rewrite <- app_assoc. reflexivity.
Qed.

Create HintDb text.
#[local] Hint Resolve includes_between includes_last includes_under : text.

(** ** Exception classes *)

Lemma isinstance_HTTPError msg response :
  isinstance (mkExc HTTPError msg response) HTTPError = true.
Proof. reflexivity. Qed.

Lemma isinstance_JSONDecodeError msg response :
  isinstance (mkExc JSONDecodeError msg response) HTTPError = false
  /\ isinstance (mkExc JSONDecodeError msg response) JSONDecodeError = true.
Proof. split; reflexivity. Qed.

(** The depth bound of [issubclass] loses nothing: one more level finds no
    further base class. *)
Lemma issubclass_saturated (c d : exc_class) :
  issubclass_upto 7 c d = issubclass c d.
Proof. destruct c, d; vm_compute; reflexivity. Qed.

(** Connection errors and timeouts reach the [RequestException] clause. *)
Lemma transport_failure_clause (e : exc) :
  issubclass (exc_cls e) ConnectionError
  || issubclass (exc_cls e) RequestsTimeout = true ->
  isinstance e HTTPError = false /\ isinstance e JSONDecodeError = false
  /\ isinstance e RequestException = true.
Proof.
  unfold isinstance. destruct (exc_cls e); vm_compute; intros H;
    first [discriminate H | repeat split].
Qed.

(** Every [RequestException] is an [Exception]. *)
Lemma RequestException_Exception (c : exc_class) :
  issubclass c RequestException = true -> issubclass c Exception = true.
Proof. destruct c; vm_compute; intros H; first [discriminate H | reflexivity]. Qed.


Lemma raise_for_status_error (r : Response) :
  400 <= status_code r < 600 ->
  exists msg, raise_for_status r = Some (mkExc HTTPError msg (Some r)).
Proof.
  intros H. unfold raise_for_status.
  destruct ((400 <=? status_code r) && (status_code r <? 500)) eqn:E4; [eauto|].
  destruct ((500 <=? status_code r) && (status_code r <? 600)) eqn:E5; [eauto|].
  apply andb_false_iff in E4, E5. lia.
Qed.

Lemma raise_for_status_pass (r : Response) :
  status_code r < 400 \/ 600 <= status_code r -> raise_for_status r = None.
Proof.
  intros H. unfold raise_for_status.
  destruct ((400 <=? status_code r) && (status_code r <? 500)) eqn:E4;
    [apply andb_true_iff in E4; lia|].
  destruct ((500 <=? status_code r) && (status_code r <? 600)) eqn:E5;
    [apply andb_true_iff in E5; lia|].
  reflexivity.
Qed.

(** ** The lint call *)

Section Properties.
Context {services : Collaborators}.

(** On a script that is not blank the call is its [try] statement: the
    request goes out, and the answer selects the branch. *)
Lemma lint_valid script user_agent w :
  strip script <> [] ->
  lint_pine_script (PyStr script) user_agent w =
  let w1 := sent w (outbound script user_agent) in
  match requests_post (outbound script user_agent) with
  | Raise e => (except_clauses e None ;;; ret PyNone) w1
  | Return response =>
      match raise_for_status response with
      | Some e => (except_clauses e (Some response) ;;; ret PyNone) w1
      | None =>
          if declares_json response then
            match Response_json response with
            | inl document => (Return document, w1)
            | inr failure =>
                (except_clauses (raised failure) (Some response)
                 ;;; ret PyNone) w1
            end
          else
            (Return PyNone,
             reported w1 (BadContentType
                            (headers_get response (lit "Content-Type"))
                            (slice_to 200 (text response))))
      end
  end.
Proof.
  intros Hs. unfold lint_pine_script.
  destruct (strip script) eqn:E; [contradiction|]. cbn [str_truthy negb].
  unfold try_suite, post, outbound, sent, json. cbv zeta.
  destruct (requests_post _) as [response|e]; [|reflexivity].
  destruct (raise_for_status response); [reflexivity|].
  destruct (declares_json response); [|reflexivity].
  destruct (Response_json response); reflexivity.
Qed.

(** C1. When the transport answers the request of a script that is not
    blank with status 200, a [Content-Type] that names [application/json]
    and a body the decoder accepts, the call returns the decoded document as
    it is and prints no diagnostic. *)
Theorem lint_returns_decoded_document script user_agent response document w :
  strip script <> [] ->
  requests_post (outbound script user_agent) = Return response ->
  status_code response = 200 ->
  declares_json response = true ->
  Response_json response = inl document ->
  lint_pine_script (PyStr script) user_agent w
  = (Return document, sent w (outbound script user_agent)).
Proof.
  intros Hs Hpost Hcode Hct Hjson.
  rewrite lint_valid by exact Hs. cbv zeta.
  rewrite Hpost, raise_for_status_pass by lia.
  rewrite Hct, Hjson. reflexivity.
Qed.

(** C2. An argument that is not a string, and a string that is empty or
    holds only whitespace, yield no result and one InvalidInput diagnostic,
    and no request is sent. *)
Theorem lint_rejects_invalid_input script_content user_agent w :
  isinstance_str script_content = false
  \/ (exists s, script_content = PyStr s /\ forallb isspace s = true) ->
  exists d,
    kind_of d = InvalidInput
    /\ lint_pine_script script_content user_agent w
       = (Return PyNone, reported w d)
    /\ network (reported w d) = network w.
Proof.
  intros [Hx|(s & -> & Hs)].
  - exists NotAString. repeat split.
    destruct script_content; first [discriminate Hx | reflexivity].
  - exists EmptyContent. repeat split.
    unfold lint_pine_script. apply blank_script in Hs. rewrite Hs. reflexivity.
Qed.

(** C4, as the module has it.  A response received with a status code from
    400 to 599 yields no result and one HttpStatusError diagnostic, whose
    message includes the status code and the first 200 characters of the
    body.  (A response is received when the script is not blank and the
    transport returns.) *)
Theorem lint_reports_http_error script user_agent response w :
  strip script <> [] ->
  requests_post (outbound script user_agent) = Return response ->
  400 <= status_code response < 600 ->
  exists d,
    d = HttpStatus (status_code response) (slice_to 200 (text response))
    /\ lint_pine_script (PyStr script) user_agent w
       = (Return PyNone, reported (sent w (outbound script user_agent)) d)
    /\ kind_of d = HttpStatusError
    /\ includes (str_of_int (status_code response)) (render d)
    /\ includes (slice_to 200 (text response)) (render d).
Proof.
  intros Hs Hpost Hcode. eexists. split; [reflexivity|].
  split; [|cbn [kind_of render]; auto 6 with text].
  rewrite lint_valid by exact Hs. cbv zeta. rewrite Hpost.
  destruct (raise_for_status_error response Hcode) as [msg ->].
  unfold except_clauses. rewrite isinstance_HTTPError. reflexivity.
Qed.

(** C5. A response received with a success status whose [Content-Type] does
    not name [application/json] yields no result and one UnexpectedContentType
    diagnostic, whose message includes the declared content type (the text
    [None] when the header is absent) and the first 200 characters of the
    body. *)
Theorem lint_reports_unexpected_content_type script user_agent response w :
  strip script <> [] ->
  requests_post (outbound script user_agent) = Return response ->
  200 <= status_code response < 300 ->
  declares_json response = false ->
  exists d,
    d = BadContentType (headers_get response (lit "Content-Type"))
          (slice_to 200 (text response))
    /\ lint_pine_script (PyStr script) user_agent w
       = (Return PyNone, reported (sent w (outbound script user_agent)) d)
    /\ kind_of d = UnexpectedContentType
    /\ includes (str_of_optional (headers_get response (lit "Content-Type")))
         (render d)
    /\ includes (slice_to 200 (text response)) (render d).
Proof.
  intros Hs Hpost Hcode Hct. eexists. split; [reflexivity|].
  split; [|cbn [kind_of render]; auto 6 with text].
  rewrite lint_valid by exact Hs. cbv zeta.
  rewrite Hpost, raise_for_status_pass by lia.
  rewrite Hct. reflexivity.
Qed.

(** C6, as the module has it.  A received response that passes the status
    check (its code is not from 400 to 599), declares JSON and on whose body
    [response.json()] raises a [JSONDecodeError] yields no result and one
    MalformedResponse diagnostic, whose message includes the decode error
    and the first 200 characters of the body. *)
Theorem lint_reports_malformed_response script user_agent response failure w :
  strip script <> [] ->
  requests_post (outbound script user_agent) = Return response ->
  status_code response < 400 \/ 600 <= status_code response ->
  declares_json response = true ->
  Response_json response = inr failure ->
  isinstance (raised failure) JSONDecodeError = true ->
  exists d,
    d = JsonDecode (exc_str (raised failure)) (slice_to 200 (text response))
    /\ lint_pine_script (PyStr script) user_agent w
       = (Return PyNone, reported (sent w (outbound script user_agent)) d)
    /\ kind_of d = MalformedResponse
    /\ includes (exc_str (raised failure)) (render d)
    /\ includes (slice_to 200 (text response)) (render d).
Proof.
  intros Hs Hpost Hcode Hct Hjson Hclass. eexists. split; [reflexivity|].
  split; [|cbn [kind_of render]; auto 6 with text].
  rewrite lint_valid by exact Hs. cbv zeta.
  rewrite Hpost, raise_for_status_pass by exact Hcode.
  rewrite Hct, Hjson. unfold except_clauses.
  rewrite (raised_not_HTTPError failure), Hclass. reflexivity.
Qed.

(** C7. When the transport, called for a script that is not blank, raises a
    connection error (which is how a failed name lookup surfaces) or a
    timeout, the call yields no result and
    one TransportError diagnostic that ends in the text of the exception;
    the request was sent with the timeout of 20. *)
Theorem lint_reports_transport_failure script user_agent e w :
  strip script <> [] ->
  requests_post (outbound script user_agent) = Raise e ->
  issubclass (exc_cls e) ConnectionError
  || issubclass (exc_cls e) RequestsTimeout = true ->
  exists d,
    d = RequestFailed (exc_str e)
    /\ lint_pine_script (PyStr script) user_agent w
       = (Return PyNone, reported (sent w (outbound script user_agent)) d)
    /\ kind_of d = TransportError
    /\ includes (exc_str e) (render d)
    /\ req_timeout (outbound script user_agent) = 20.
Proof.
  intros Hs Hpost Hcls. eexists. split; [reflexivity|].
  split; [|cbn [kind_of render]; auto 6 with text].
  rewrite lint_valid by exact Hs. cbv zeta. rewrite Hpost.
  destruct (transport_failure_clause e Hcls) as (Hh & Hj & Hr).
  unfold except_clauses. rewrite Hh, Hj, Hr. reflexivity.
Qed.

(** What [raise_for_status] raises is an [HTTPError] that carries the
    response. *)
Lemma raise_for_status_shape (r : Response) e :
  raise_for_status r = Some e ->
  isinstance e HTTPError = true /\ exc_response e = Some r.
Proof.
  unfold raise_for_status.
  destruct ((400 <=? status_code r) && (status_code r <? 500));
    [intros [= <-]; split; reflexivity|].
  destruct ((500 <=? status_code r) && (status_code r <? 600));
    [intros [= <-]; split; reflexivity|discriminate].
Qed.

Lemma then_None (c : M unit) w w' :
  c w = (Return tt, w') -> (c ;;; ret PyNone) w = (Return PyNone, w').
Proof. intros H. unfold bind. rewrite H. reflexivity. Qed.

Lemma except_HTTPError e r response w :
  isinstance e HTTPError = true -> exc_response e = Some r ->
  except_clauses e response w
  = (Return tt, reported w (HttpStatus (status_code r) (slice_to 200 (text r)))).
Proof. intros Hh Hr. unfold except_clauses. rewrite Hh, Hr. reflexivity. Qed.

Lemma except_JSONDecodeError err r w :
  except_clauses (mkExc JSONDecodeError err None) (Some r) w
  = (Return tt, reported w (JsonDecode err (slice_to 200 (text r)))).
Proof. reflexivity. Qed.

(** The diagnostic of the clause that catches what [response.json()]
    raised. *)
Definition decode_diagnostic (failure : decode_failure) (r : Response)
  : diagnostic :=
  if isinstance (raised failure) JSONDecodeError then
    JsonDecode (exc_str (raised failure)) (slice_to 200 (text r))
  else if isinstance (raised failure) RequestException then
    RequestFailed (exc_str (raised failure))
  else Unexpected (exc_str (raised failure)).

Lemma except_decode_failure failure r w :
  except_clauses (raised failure) (Some r) w
  = (Return tt, reported w (decode_diagnostic failure r)).
Proof.
  unfold except_clauses, decode_diagnostic.
  rewrite (raised_not_HTTPError failure).
  destruct (isinstance (raised failure) JSONDecodeError); [reflexivity|].
  destruct (isinstance (raised failure) RequestException); [reflexivity|].
  rewrite (raised_Exception failure). reflexivity.
Qed.




(** *** Statelessness *)

Lemma reported_extended w d : reported w d = extended w [render d] [].
Proof. unfold reported, extended. now rewrite app_nil_r. Qed.

Lemma sent_extended w req : sent w req = extended w [] [req].
Proof. unfold sent, extended. now rewrite app_nil_r. Qed.

Lemma extended_extended w errors requests errors' requests' :
  extended (extended w errors requests) errors' requests'
  = extended w (errors ++ errors') (requests ++ requests').
Proof. unfold extended. cbn. now rewrite !app_assoc. Qed.

Lemma except_clauses_appends e response : appends (except_clauses e response).
Proof.
  unfold appends, except_clauses.
  destruct (isinstance e HTTPError);
    [destruct (exc_response e)|
     destruct (isinstance e JSONDecodeError);
     [|destruct (isinstance e RequestException);
       [|destruct (isinstance e Exception)]]];
    try (eexists _, _, []; intros w; unfold report, print_stderr;
         rewrite <- (app_nil_r (network w)) at 1; reflexivity);
    eexists _, [], []; intros w; unfold raise, extended;
    rewrite !app_nil_r; now destruct w.
Qed.

Lemma bind_appends {A B} (c : M A) (k : A -> M B) :
  appends c -> (forall a, appends (k a)) -> appends (bind c k).
Proof.
  intros (result & errors & requests & Hc) Hk. unfold appends, bind.
  destruct result as [a|e].
  - destruct (Hk a) as (result' & errors' & requests' & Hk').
    exists result', (errors ++ errors'), (requests ++ requests').
    intros w. rewrite Hc, Hk'. now rewrite extended_extended.
  - exists (Raise e), errors, requests. intros w. now rewrite Hc.
Qed.

Lemma ret_appends {A} (a : A) : appends (ret a).
Proof.
  exists (Return a), [], []. intros w. unfold ret, extended.
  rewrite !app_nil_r. now destruct w.
Qed.

Lemma after_sending {A} (c : M A) req :
  appends c -> appends (fun w => c (sent w req)).
Proof.
  intros (result & errors & requests & Hc).
  exists result, errors, (req :: requests). intros w.
  rewrite Hc, sent_extended, extended_extended. reflexivity.
Qed.

(** The call adds to the error stream and to the requests sent; its
    result, its diagnostics and its requests do not depend on the world it
    starts in. *)
Lemma lint_appends script_content user_agent :
  appends (lint_pine_script script_content user_agent).
Proof.
  assert (Hreport : forall d, appends (report d ;;; ret PyNone)).
  { intros d. exists (Return PyNone), [render d], []. intros w.
    unfold bind, report, print_stderr, ret, extended. now rewrite app_nil_r. }
  destruct script_content as [|b|i|f|script|b|l|d]; try apply Hreport.
  destruct (list_eq_dec (strip script) []) as [Hblank|Hs].
  { unfold lint_pine_script. rewrite Hblank. apply Hreport. }
  assert (Hclauses : forall e response,
            appends (fun w => (except_clauses e response ;;; ret PyNone)
                                (sent w (outbound script user_agent)))).
  { intros e response. apply after_sending, bind_appends.
    - apply except_clauses_appends.
    - intros _. apply ret_appends. }
  unfold appends.
  destruct (requests_post (outbound script user_agent)) as [response|e] eqn:Epost.
  - destruct (raise_for_status response) as [e|] eqn:Eraise.
    + destruct (Hclauses e (Some response)) as (result & errors & requests & H).
      exists result, errors, requests. intros w.
      rewrite lint_valid by exact Hs. cbv zeta. rewrite Epost, Eraise. apply H.
    + destruct (declares_json response) eqn:Ect.
      * destruct (Response_json response) as [document|err] eqn:Ejson.
        -- exists (Return document), [], [outbound script user_agent]. intros w.
           rewrite lint_valid by exact Hs. cbv zeta.
           rewrite Epost, Eraise, Ect, Ejson, sent_extended. reflexivity.
        -- destruct (Hclauses (raised err) (Some response))
             as (result & errors & requests & H).
           exists result, errors, requests. intros w.
           rewrite lint_valid by exact Hs. cbv zeta.
           rewrite Epost, Eraise, Ect, Ejson. apply H.
      * eexists (Return PyNone), [_], [outbound script user_agent]. intros w.
        rewrite lint_valid by exact Hs. cbv zeta.
        rewrite Epost, Eraise, Ect. reflexivity.
  - destruct (Hclauses e None) as (result & errors & requests & H).
    exists result, errors, requests. intros w.
    rewrite lint_valid by exact Hs. cbv zeta. rewrite Epost. apply H.
Qed.

(** C9. Two calls in a row with the same arguments, the second starting
    in the world the first left, have the same outcome, print the same
    diagnostics and send the same requests: nothing a call leaves behind
    reaches the next one. *)
Theorem lint_twice_same script_content user_agent w :
  exists result errors requests,
    lint_pine_script script_content user_agent w
    = (result, extended w errors requests)
    /\ lint_pine_script script_content user_agent (extended w errors requests)
       = (result, extended (extended w errors requests) errors requests).
Proof.
  destruct (lint_appends script_content user_agent)
    as (result & errors & requests & H).
  exists result, errors, requests. split; apply H.
Qed.

(** *** The request *)

#[local] Ltac other_name :=
  let H := fresh in intros H; vm_compute in H; discriminate H.

(** The headers of the request, one by one. *)
Lemma request_headers_lookup user_agent :
  request_headers user_agent !! lit "User-Agent" = Some user_agent
  /\ request_headers user_agent !! lit "Content-Type"
     = Some (lit "application/x-www-form-urlencoded;charset=UTF-8")
  /\ request_headers user_agent !! lit "Accept"
     = Some (lit "application/json, text/plain, */*")
  /\ request_headers user_agent !! lit "Origin"
     = Some (lit "https://www.tradingview.com")
  /\ request_headers user_agent !! lit "Referer"
     = Some (lit "https://www.tradingview.com/").
Proof.
  unfold request_headers, dict_display. cbn [fold_left fst snd].
  repeat split;
    repeat first [ apply lookup_insert_eq
                 | rewrite lookup_insert_ne by other_name ].
Qed.

(** Without the [User-Agent] entry the headers do not depend on the
    identity. *)
Lemma request_headers_frame user_agent user_agent' :
  delete (lit "User-Agent") (request_headers user_agent)
  = delete (lit "User-Agent") (request_headers user_agent').
Proof.
  unfold request_headers, dict_display. cbn [fold_left fst snd].
  rewrite !(delete_insert_ne _ (lit "User-Agent")) by other_name.
  now rewrite !delete_insert_eq.
Qed.

(** What the call sends: one request on a script that is not blank, none
    otherwise. *)
Lemma lint_network script user_agent w :
  network (snd (lint_pine_script (PyStr script) user_agent w))
  = network w ++ (if str_truthy (strip script)
                  then [outbound script user_agent] else []).
Proof.
  assert (Hsent : forall e response w1,
            network (snd ((except_clauses e response ;;; ret PyNone) w1))
            = network w1).
  { intros e response w1. unfold bind, except_clauses.
    destruct (isinstance e HTTPError);
      [destruct (exc_response e)|
       destruct (isinstance e JSONDecodeError);
       [|destruct (isinstance e RequestException);
         [|destruct (isinstance e Exception)]]]; reflexivity. }
  destruct (strip script) as [|c t] eqn:E.
  - unfold lint_pine_script. rewrite E. cbn. now rewrite app_nil_r.
  - assert (Hs : strip script <> []) by (rewrite E; discriminate).
    rewrite lint_valid by exact Hs. cbv zeta.
    change (str_truthy (c :: t)) with true. cbv iota.
    destruct (requests_post _) as [response|e]; [|apply Hsent].
    destruct (raise_for_status response); [apply Hsent|].
    destruct (declares_json response); [|reflexivity].
    destruct (Response_json response); [reflexivity|apply Hsent].
Qed.

(** C10. For one script and two identities the requests differ in the
    [User-Agent] header alone: the URL, the four other headers, the form
    with its single [source] field holding the whole script, and the
    timeout are the same, and so is whether a request is sent at all. *)
Theorem user_agent_changes_one_header script user_agent user_agent' w :
  let req := outbound script user_agent in
  let req' := outbound script user_agent' in
  network (snd (lint_pine_script (PyStr script) user_agent w))
  = network w ++ (if str_truthy (strip script) then [req] else [])
  /\ network (snd (lint_pine_script (PyStr script) user_agent' w))
     = network w ++ (if str_truthy (strip script) then [req'] else [])
  /\ req_url req = LINT_URL /\ req_url req' = LINT_URL
  /\ req_headers req !! lit "User-Agent" = Some user_agent
  /\ req_headers req' !! lit "User-Agent" = Some user_agent'
  /\ delete (lit "User-Agent") (req_headers req)
     = delete (lit "User-Agent") (req_headers req')
  /\ Forall (fun name => is_Some (req_headers req !! name)
                         /\ req_headers req !! name = req_headers req' !! name)
       [lit "Content-Type"; lit "Accept"; lit "Origin"; lit "Referer"]
  /\ req_data req = {[ lit "source" := script ]}
  /\ req_data req' = {[ lit "source" := script ]}
  /\ req_timeout req = 20 /\ req_timeout req' = 20.
Proof.
  cbv zeta. split; [apply lint_network|]. split; [apply lint_network|].
  destruct (request_headers_lookup user_agent) as (Hua & Hct & Hac & Hor & Hre).
  destruct (request_headers_lookup user_agent') as (Hua' & Hct' & Hac' & Hor' & Hre').
  cbn [outbound req_url req_headers req_data req_timeout].
  repeat first [ split | assumption | apply request_headers_frame ];
    try reflexivity.
  repeat constructor; eauto; congruence.
Qed.

(** *** The command line *)

(** X14. What a run prints to standard output: the result of the lint
    call, dumped with an indent of 4, when the file was read and the call
    returned a result that is true as a condition; nothing otherwise. *)
Lemma main_stdout argv w :
  stdout (snd (main argv w))
  = stdout w ++
    match argv with
    | _ :: file_path :: _ =>
        match open_read file_path with
        | Return script_content =>
            match fst (lint_pine_script (PyStr script_content)
                         DEFAULT_USER_AGENT w) with
            | Return lint_result =>
                if truthy lint_result then [json_dumps lint_result 4] else []
            | Raise _ => []
            end
        | Raise _ => []
        end
    | _ => []
    end.
Proof.
  unfold main.
  destruct argv as [|program [|file_path rest]];
    cbn [length Nat.ltb Nat.leb nth]; try (cbn; now rewrite app_nil_r).
  assert (Hclauses : forall e w',
            stdout (snd (if isinstance e FileNotFoundError
                         then report (FileMissing file_path) w'
                         else if isinstance e Exception
                              then report (FileFailed (exc_str e)) w'
                              else (Raise e, w'))) = stdout w').
  { intros e w'. destruct (isinstance e FileNotFoundError);
      [|destruct (isinstance e Exception)]; reflexivity. }
  unfold main_suite, bind.
  destruct (open_read file_path) as [script_content|e].
  - destruct (lint_appends (PyStr script_content) DEFAULT_USER_AGENT)
      as (result & errors & requests & H).
    rewrite H. cbn [fst].
    destruct result as [lint_result|e].
    + destruct (truthy lint_result); cbn; [reflexivity|now rewrite app_nil_r].
    + rewrite Hclauses. cbn. now rewrite app_nil_r.
  - rewrite Hclauses. now rewrite app_nil_r.
Qed.

End Properties.

(** * The module on concrete inputs *)

(** A header is found whatever the case of its name. *)
Example headers_get_any_case :
  headers_get
    (mkResponse 200 [] LINT_URL
       (CaseInsensitiveDict [(lit "content-type", json_type)]) [])
    (lit "Content-Type")
  = Some json_type.
Proof. vm_compute. reflexivity. Qed.

(** A long body is cut to its first 200 characters in the message. *)
Example http_error_line_is_cut :
  render (HttpStatus 503 (slice_to 200 (replicate 300 120%N)))
  = lit "HTTP error during linting: 503 - " ++ replicate 200 120%N.
Proof. vm_compute. reflexivity. Qed.

(** Trimming keeps the inside of a script. *)
Example strip_keeps_inside :
  strip (lit "  a b  ") = lit "a b" /\ strip [9; 10; 0x3000]%N = [].
Proof. split; vm_compute; reflexivity. Qed.

Lemma lint_returns_decoded_document_witness :
  @lint_pine_script (simulated (answering ok_response))
    (PyStr a_script) DEFAULT_USER_AGENT empty_world
  = (Return ok_document, sent empty_world the_request).
Proof.
  apply (@lint_returns_decoded_document (simulated (answering ok_response))
           a_script DEFAULT_USER_AGENT ok_response ok_document empty_world).
  - vm_compute. discriminate.
  - reflexivity.
  - reflexivity.
  - vm_compute. reflexivity.
  - vm_compute. reflexivity.
Defined.

Lemma lint_rejects_invalid_input_witness :
  (exists d,
     kind_of d = InvalidInput
     /\ @lint_pine_script (simulated (answering ok_response))
          (PyBytes (lit "strategy()")) DEFAULT_USER_AGENT empty_world
        = (Return PyNone, reported empty_world d)
     /\ network (reported empty_world d) = network empty_world)
  /\ (exists d,
        kind_of d = InvalidInput
        /\ @lint_pine_script (simulated (answering ok_response))
             (PyStr [32; 9; 10; 0xA0]%N) DEFAULT_USER_AGENT empty_world
           = (Return PyNone, reported empty_world d)
        /\ network (reported empty_world d) = network empty_world).
Proof.
  split;
    apply (@lint_rejects_invalid_input (simulated (answering ok_response))).
  - left. reflexivity.
  - right. eexists. split; reflexivity.
Defined.

(** C3 fails on the module.  The service answers with the empty object:
    the lint call succeeds and returns it, and the command line prints
    nothing, because the entry point tests the result as a condition and an
    empty [dict] is false. *)
Theorem main_drops_empty_document :
  @lint_pine_script (simulated (answering empty_response))
    (PyStr a_script) DEFAULT_USER_AGENT empty_world
  = (Return (PyDict []), sent empty_world the_request)
  /\ truthy (PyDict []) = false
  /\ @main (simulated (answering empty_response))
       [lit "run_linter.py"; a_path] empty_world
     = (Return tt, sent empty_world the_request)
  /\ stdout (sent empty_world the_request) = [].
Proof. repeat split; vm_compute; reflexivity. Qed.

(** The same run against a service that answers with a non-empty object
    prints it, indented by four spaces. *)
Example main_prints_document :
  stdout (snd (@main (simulated (answering ok_response))
                 [lit "run_linter.py"; a_path] empty_world))
  = [ lit "{" ++ nl ++ lit "    " ++ dq ++ lit "result" ++ dq ++ lit ": "
      ++ dq ++ lit "ok" ++ dq ++ nl ++ lit "}" ].
Proof. vm_compute. reflexivity. Qed.

(** C4 fails on the module for a status that is neither a success nor an
    error: a 300 answer with a JSON body is returned as the result, and no
    diagnostic is printed. *)
Lemma lint_returns_redirection_document :
  status_code choices_response = 300
  /\ @lint_pine_script (simulated (answering choices_response))
       (PyStr a_script) DEFAULT_USER_AGENT empty_world
     = (Return ok_document, sent empty_world the_request)
  /\ stderr (sent empty_world the_request) = [].
Proof. repeat split; vm_compute; reflexivity. Qed.

Lemma lint_reports_http_error_witness :
  exists d,
    d = HttpStatus (status_code error_response)
          (slice_to 200 (text error_response))
    /\ @lint_pine_script (simulated (answering error_response))
         (PyStr a_script) DEFAULT_USER_AGENT empty_world
       = (Return PyNone, reported (sent empty_world the_request) d)
    /\ kind_of d = HttpStatusError
    /\ includes (str_of_int (status_code error_response)) (render d)
    /\ includes (slice_to 200 (text error_response)) (render d).
Proof.
  apply (@lint_reports_http_error (simulated (answering error_response))
           a_script DEFAULT_USER_AGENT error_response empty_world).
  - vm_compute. discriminate.
  - reflexivity.
  - cbn. lia.
Defined.

Lemma lint_reports_unexpected_content_type_witness :
  exists d,
    d = BadContentType (headers_get html_response (lit "Content-Type"))
          (slice_to 200 (text html_response))
    /\ @lint_pine_script (simulated (answering html_response))
         (PyStr a_script) DEFAULT_USER_AGENT empty_world
       = (Return PyNone, reported (sent empty_world the_request) d)
    /\ kind_of d = UnexpectedContentType
    /\ includes (str_of_optional (headers_get html_response (lit "Content-Type")))
         (render d)
    /\ includes (slice_to 200 (text html_response)) (render d).
Proof.
  apply (@lint_reports_unexpected_content_type
           (simulated (answering html_response))
           a_script DEFAULT_USER_AGENT html_response empty_world).
  - vm_compute. discriminate.
  - reflexivity.
  - cbn. lia.
  - vm_compute. reflexivity.
Defined.

(** C6 fails on the module in two ways.  When the status is an error, the
    answer declares JSON and its body does not decode, and the diagnostic is
    the one of the status check, not the one of the decoder.  When the
    status is 200 and the decoder gives up on a deeply nested body with a
    [RecursionError], the diagnostic is the one of the last clause. *)
Lemma lint_undecodable_not_malformed :
  (declares_json garbled_error_response = true
   /\ @Response_json (simulated (answering garbled_error_response))
        garbled_error_response = inr not_json
   /\ @lint_pine_script (simulated (answering garbled_error_response))
        (PyStr a_script) DEFAULT_USER_AGENT empty_world
      = (Return PyNone,
         reported (sent empty_world the_request)
           (HttpStatus 500 (lit "not json")))
   /\ kind_of (HttpStatus 500 (lit "not json")) = HttpStatusError
   /\ (forall err body,
         render (JsonDecode err body)
         <> render (HttpStatus 500 (lit "not json"))))
  /\ (status_code deep_response = 200
      /\ declares_json deep_response = true
      /\ @Response_json (simulated (answering deep_response)) deep_response
         = inr too_deep
      /\ @lint_pine_script (simulated (answering deep_response))
           (PyStr a_script) DEFAULT_USER_AGENT empty_world
         = (Return PyNone,
            reported (sent empty_world the_request)
              (Unexpected (exc_str (raised too_deep))))
      /\ kind_of (Unexpected (exc_str (raised too_deep))) = UnknownError
      /\ (forall err body,
            render (JsonDecode err body)
            <> render (Unexpected (exc_str (raised too_deep))))).
Proof.
  split.
  - repeat split; try (vm_compute; reflexivity).
    intros err body H. vm_compute in H. discriminate H.
  - repeat split; try (vm_compute; reflexivity).
    intros err body H. vm_compute in H. discriminate H.
Qed.

Lemma lint_reports_malformed_response_witness :
  exists d,
    d = JsonDecode (exc_str (raised not_json))
          (slice_to 200 (text garbled_response))
    /\ @lint_pine_script (simulated (answering garbled_response))
         (PyStr a_script) DEFAULT_USER_AGENT empty_world
       = (Return PyNone, reported (sent empty_world the_request) d)
    /\ kind_of d = MalformedResponse
    /\ includes (exc_str (raised not_json)) (render d)
    /\ includes (slice_to 200 (text garbled_response)) (render d).
Proof.
  apply (@lint_reports_malformed_response
           (simulated (answering garbled_response))
           a_script DEFAULT_USER_AGENT garbled_response not_json empty_world).
  - vm_compute. discriminate.
  - reflexivity.
  - left. vm_compute. reflexivity.
  - vm_compute. reflexivity.
  - vm_compute. reflexivity.
  - vm_compute. reflexivity.
Defined.

(** A body the decoder gives up on is not reported as malformed: the
    [RecursionError] reaches the last clause. *)
Example lint_reports_decoder_giving_up :
  @lint_pine_script (simulated (answering deep_response))
    (PyStr a_script) DEFAULT_USER_AGENT empty_world
  = (Return PyNone,
     reported (sent empty_world the_request)
       (Unexpected (exc_str (raised too_deep)))).
Proof. vm_compute. reflexivity. Qed.

Lemma lint_reports_transport_failure_witness :
  exists d,
    d = RequestFailed (exc_str read_timeout)
    /\ @lint_pine_script (simulated (slow 21 ok_response))
         (PyStr a_script) DEFAULT_USER_AGENT empty_world
       = (Return PyNone, reported (sent empty_world the_request) d)
    /\ kind_of d = TransportError
    /\ includes (exc_str read_timeout) (render d)
    /\ req_timeout the_request = 20.
Proof.
  apply (@lint_reports_transport_failure (simulated (slow 21 ok_response))
           a_script DEFAULT_USER_AGENT read_timeout empty_world).
  - vm_compute. discriminate.
  - vm_compute. reflexivity.
  - vm_compute. reflexivity.
Defined.

(** An answer that arrives within the timeout is used. *)
Example lint_waits_up_to_the_timeout :
  fst (@lint_pine_script (simulated (slow 20 ok_response))
         (PyStr a_script) DEFAULT_USER_AGENT empty_world)
  = Return ok_document.
Proof. vm_compute. reflexivity. Qed.



(** What the interrupted and the surprised run print. *)
Example lint_reports_surprise :
  @lint_pine_script (simulated (failing surprise))
    (PyStr a_script) DEFAULT_USER_AGENT empty_world
  = (Return PyNone,
     reported (sent empty_world the_request) (Unexpected (lit "boom"))).
Proof. vm_compute. reflexivity. Qed.

(** An [HTTPError] the transport raises without a response makes the
    handler itself fail, and the call raises an [AttributeError]. *)
Example lint_raises_on_bare_http_error :
  fst (@lint_pine_script (simulated (failing (mkExc HTTPError (lit "boom") None)))
         (PyStr a_script) DEFAULT_USER_AGENT empty_world)
  = Raise (mkExc AttributeError
             (lit "'NoneType' object has no attribute 'status_code'") None).
Proof. vm_compute. reflexivity. Qed.

(** * Every path through the module *)

(** ** Exception classes, continued *)


Lemma HTTPError_Exception (e : exc) :
  isinstance e HTTPError = true -> isinstance e Exception = true.
Proof.
  unfold isinstance. destruct (exc_cls e); vm_compute; intros H;
    first [discriminate H | reflexivity].
Qed.

(** No class of the table is both a [JSONDecodeError] and an [HTTPError]. *)
Lemma JSONDecodeError_not_HTTPError (e : exc) :
  isinstance e JSONDecodeError = true -> isinstance e HTTPError = false.
Proof.
  unfold isinstance. destruct (exc_cls e); vm_compute; intros H;
    first [discriminate H | reflexivity].
Qed.

Lemma raise_for_status_range (r : Response) e :
  raise_for_status r = Some e -> 400 <= status_code r < 600.
Proof.
  intros H.
  destruct (Z_lt_dec (status_code r) 400) as [Hlow|Hlow];
    [rewrite raise_for_status_pass in H by lia; discriminate H|].
  destruct (Z_le_dec 600 (status_code r)) as [Hhigh|Hhigh];
    [rewrite raise_for_status_pass in H by lia; discriminate H|].
  lia.
Qed.


Section Coverage.
Context {services : Collaborators}.

(** ** The lint call, path by path *)

(** Every call goes one of the ways of [lint_run]. *)
Lemma lint_cases script_content user_agent w :
  lint_run script_content user_agent w
    (lint_pine_script script_content user_agent w).
Proof.
  destruct script_content as [|b|i|f|script|b|l|d];
    try (apply run_not_a_string; reflexivity).
  destruct (list_eq_dec (strip script) []) as [Hblank|Hs].
  { replace (lint_pine_script (PyStr script) user_agent w)
      with (Return PyNone, reported w EmptyContent)
      by (unfold lint_pine_script; rewrite Hblank; reflexivity).
    now apply run_blank with script. }
  rewrite lint_valid by exact Hs. cbv zeta.
  destruct (requests_post (outbound script user_agent)) as [response|e] eqn:Epost.
  - destruct (raise_for_status response) as [e|] eqn:Eraise.
    + destruct (raise_for_status_shape response e Eraise) as [Hh Hr].
      erewrite then_None by (apply except_HTTPError; eassumption).
      now apply run_status with e.
    + destruct (declares_json response) eqn:Ect.
      * destruct (Response_json response) as [document|failure] eqn:Ejson.
        -- now apply run_document with response.
        -- erewrite then_None by apply except_decode_failure.
           unfold decode_diagnostic.
           destruct (isinstance (raised failure) JSONDecodeError) eqn:Ej;
             [now apply (run_undecodable _ _ _ script response failure)|].
           destruct (isinstance (raised failure) RequestException) eqn:Erq;
             [now apply (run_decoder_request _ _ _ script response failure)|].
           now apply (run_decoder_other _ _ _ script response failure).
      * now apply run_content_type.
  - unfold bind, except_clauses.
    destruct (isinstance e HTTPError) eqn:Eh.
    { destruct (exc_response e) as [r|] eqn:Er.
      - now apply run_raised_status with e.
      - now apply run_handler_failed with e. }
    destruct (isinstance e JSONDecodeError) eqn:Ej;
      [now apply run_raised_decode|].
    destruct (isinstance e RequestException) eqn:Erq;
      [now apply run_raised_request|].
    destruct (isinstance e Exception) eqn:Ee.
    + now apply run_raised_other.
    + now apply run_propagated.
Qed.

(** The shape of what a call leaves: nothing on standard output, at most
    one diagnostic, at most one request; a diagnostic goes with the result
    [None], a raised exception with no diagnostic. *)
Lemma lint_shape script_content user_agent w :
  exists errors requests,
    snd (lint_pine_script script_content user_agent w)
    = extended w errors requests
    /\ (length errors <= 1)%nat /\ (length requests <= 1)%nat
    /\ (errors <> [] ->
        fst (lint_pine_script script_content user_agent w) = Return PyNone)
    /\ (forall e,
        fst (lint_pine_script script_content user_agent w) = Raise e ->
        errors = []).
Proof.
  destruct (lint_cases script_content user_agent w);
    cbn [fst snd];
    first
      [ exists [], [outbound script user_agent];
        split; [apply sent_extended|];
        repeat split; cbn; first [lia | congruence | discriminate]
      | eexists [_], [];
        split; [apply reported_extended|];
        repeat split; cbn; first [lia | congruence | discriminate]
      | eexists [_], [outbound script user_agent];
        split; [reflexivity|];
        repeat split; cbn; first [lia | congruence | discriminate] ].
Qed.

(** X1. A result other than [None] is always the decoded body of a
    response that passed the status check and declared JSON; the call then
    printed nothing and sent exactly the one request. *)
Theorem lint_result_sound script_content user_agent w result w' :
  lint_pine_script script_content user_agent w = (Return result, w') ->
  result <> PyNone ->
  exists script response,
    script_content = PyStr script /\ strip script <> []
    /\ requests_post (outbound script user_agent) = Return response
    /\ (status_code response < 400 \/ 600 <= status_code response)
    /\ declares_json response = true
    /\ Response_json response = inl result
    /\ w' = sent w (outbound script user_agent).
Proof.
  intros Hrun Hresult.
  pose proof (lint_cases script_content user_agent w) as Hcase.
  rewrite Hrun in Hcase.
  inversion Hcase; subst; try contradiction.
  exists script, response. repeat split; try assumption.
  destruct (Z_lt_dec (status_code response) 400); [now left|].
  destruct (Z_le_dec 600 (status_code response)); [now right|].
  destruct (raise_for_status_error response) as [msg Hmsg]; [lia|].
  congruence.
Qed.


(** X3. One call prints nothing to standard output, at most one diagnostic
    and sends at most one request (there is no retry); when it prints a
    diagnostic it returns [None]. *)
Theorem lint_effects_bounded script_content user_agent w :
  let run := lint_pine_script script_content user_agent w in
  stdout (snd run) = stdout w
  /\ exists errors requests,
       stderr (snd run) = stderr w ++ errors
       /\ network (snd run) = network w ++ requests
       /\ (length errors <= 1)%nat /\ (length requests <= 1)%nat
       /\ (errors <> [] -> fst run = Return PyNone).
Proof.
  cbv zeta.
  destruct (lint_shape script_content user_agent w)
    as (errors & requests & Hw & Herr & Hreq & Hnone & _).
  rewrite Hw. split; [reflexivity|].
  exists errors, requests. repeat split; assumption.
Qed.


(** X5. A [JSONDecodeError] raised by the transport itself, before any
    response exists, is reported as a decode error whose response text is
    the placeholder [N/A]. *)
Theorem lint_reports_decode_error_without_response script user_agent e w :
  strip script <> [] ->
  requests_post (outbound script user_agent) = Raise e ->
  isinstance e JSONDecodeError = true ->
  lint_pine_script (PyStr script) user_agent w
  = (Return PyNone,
     reported (sent w (outbound script user_agent))
       (JsonDecode (exc_str e) (lit "N/A")))
  /\ render (JsonDecode (exc_str e) (lit "N/A"))
     = lit "JSON decode error during linting: " ++ exc_str e
       ++ lit ". Response text: N/A".
Proof.
  intros Hs Hpost Hj. split; [|reflexivity].
  rewrite lint_valid by exact Hs. cbv zeta. rewrite Hpost.
  unfold bind, except_clauses.
  rewrite (JSONDecodeError_not_HTTPError e Hj), Hj. reflexivity.
Qed.

(** X6. Every [RequestException] the transport raises that is neither an
    [HTTPError] nor a [JSONDecodeError] (too many redirects, an invalid URL,
    a broken chunked body, ...) is reported by the [RequestException] clause,
    with the text of the exception at the end of the message. *)
Theorem lint_reports_request_exception script user_agent e w :
  strip script <> [] ->
  requests_post (outbound script user_agent) = Raise e ->
  isinstance e RequestException = true ->
  isinstance e HTTPError = false ->
  isinstance e JSONDecodeError = false ->
  lint_pine_script (PyStr script) user_agent w
  = (Return PyNone,
     reported (sent w (outbound script user_agent)) (RequestFailed (exc_str e)))
  /\ render (RequestFailed (exc_str e))
     = lit "Request exception during linting: " ++ exc_str e.
Proof.
  intros Hs Hpost Hr Hh Hj. split; [|reflexivity].
  rewrite lint_valid by exact Hs. cbv zeta. rewrite Hpost.
  unfold bind, except_clauses. rewrite Hh, Hj, Hr. reflexivity.
Qed.

(** X7. The content-type test succeeds exactly when the response has a
    [Content-Type] header whose value contains [application/json] somewhere,
    so parameters such as a charset are accepted and a missing header is
    not. *)
Theorem declares_json_iff (response : Response) :
  declares_json response = true
  <-> exists declared,
        headers_get response (lit "Content-Type") = Some declared
        /\ includes (lit "application/json") declared.
Proof.
  unfold declares_json, headers_get_default.
  destruct (headers_get response (lit "Content-Type")) as [declared|]; cbn.
  - rewrite contains_includes. split.
    + intros H. exists declared. split; [reflexivity|exact H].
    + intros (d & [= <-] & H). exact H.
  - split; [discriminate|]. intros (d & H & _). discriminate H.
Qed.

(** X8. A response that passes the status check and has no [Content-Type]
    header is rejected whatever its body holds, and the diagnostic names the
    content type [None]. *)
Theorem lint_rejects_undeclared_content_type script user_agent response w :
  strip script <> [] ->
  requests_post (outbound script user_agent) = Return response ->
  status_code response < 400 \/ 600 <= status_code response ->
  headers_get response (lit "Content-Type") = None ->
  lint_pine_script (PyStr script) user_agent w
  = (Return PyNone,
     reported (sent w (outbound script user_agent))
       (BadContentType None (slice_to 200 (text response))))
  /\ render (BadContentType None (slice_to 200 (text response)))
     = lit "Error: Unexpected content type 'None'. Response text: "
       ++ slice_to 200 (text response).
Proof.
  intros Hs Hpost Hcode Hct. split; [|reflexivity].
  rewrite lint_valid by exact Hs. cbv zeta.
  rewrite Hpost, raise_for_status_pass by exact Hcode.
  unfold declares_json, headers_get_default. rewrite Hct. reflexivity.
Qed.

Lemma str_of_int_three_digits (code : Z) :
  100 <= code < 1000 -> length (str_of_int code) = 3%nat.
Proof.
  intros H.
  assert (Hall : forallb (fun n => Nat.eqb (length (str_of_int (Z.of_nat n + 100))) 3)
                   (seq 0 900) = true) by (vm_compute; reflexivity).
  rewrite forallb_forall in Hall.
  specialize (Hall (Z.to_nat (code - 100))).
  rewrite Z2Nat.id in Hall by lia.
  replace (code - 100 + 100) with code in Hall by lia.
  apply Nat.eqb_eq, Hall, in_seq. lia.
Qed.

(** X9. The diagnostic of an HTTP error is short whatever the size of the
    body: for a status code from 400 to 599 the line printed has at most 233
    characters. *)
Theorem http_error_line_bounded script user_agent response w :
  strip script <> [] ->
  requests_post (outbound script user_agent) = Return response ->
  400 <= status_code response < 600 ->
  exists line,
    stderr (snd (lint_pine_script (PyStr script) user_agent w))
    = stderr w ++ [line]
    /\ (length line <= 233)%nat.
Proof.
  intros Hs Hpost Hcode.
  rewrite lint_valid by exact Hs. cbv zeta. rewrite Hpost.
  destruct (raise_for_status_error response Hcode) as [msg ->].
  erewrite then_None by (apply except_HTTPError; reflexivity).
  eexists. split; [reflexivity|].
  cbn [render]. rewrite !length_app, str_of_int_three_digits by lia.
  unfold slice_to. rewrite length_take.
  change (length (lit "HTTP error during linting: ")) with 27%nat.
  change (length (lit " - ")) with 3%nat. lia.
Qed.

(** ** The command line, path by path *)

(** With a file argument the entry point is its [try] statement. *)
Lemma main_with_file prog file_path rest w :
  main (prog :: file_path :: rest) w =
  match open_read file_path with
  | Raise e => main_clauses file_path e w
  | Return script_content =>
      match lint_pine_script (PyStr script_content) DEFAULT_USER_AGENT w with
      | (Return lint_result, w1) =>
          (Return tt,
           if truthy lint_result then printed w1 (json_dumps lint_result 4)
           else w1)
      | (Raise e, w1) => main_clauses file_path e w1
      end
  end.
Proof.
  unfold main, main_suite, bind, main_clauses.
  cbn [length Nat.ltb Nat.leb nth].
  destruct (open_read file_path) as [script_content|e]; [|reflexivity].
  destruct (lint_pine_script _ _ w) as [[lint_result|e] w1]; [|reflexivity].
  destruct (truthy lint_result); reflexivity.
Qed.

(** Without a file argument ([sys.argv] holds the program name, or
    nothing at all) the entry point prints the usage line to the error
    stream and does nothing else. *)
Theorem main_usage argv w :
  (length argv <= 1)%nat ->
  main argv w = (Return tt, reported w Usage)
  /\ render Usage = lit "Usage: python run_linter.py <path_to_pine_script_file>".
Proof.
  intros H. split; [|reflexivity].
  destruct argv as [|prog [|file_path rest]]; [reflexivity..|].
  cbn in H. lia.
Qed.

(** When the file cannot be read the block does not attempt the lint call:
    no request is sent and one line is printed, which names the path for a
    [FileNotFoundError] and shows the text of any other exception deriving
    from [Exception]. *)
Lemma main_unreadable_file prog file_path rest e w :
  open_read file_path = Raise e ->
  isinstance e Exception = true ->
  main (prog :: file_path :: rest) w
  = (Return tt,
     reported w (if isinstance e FileNotFoundError
                 then FileMissing file_path else FileFailed (exc_str e)))
  /\ render (FileMissing file_path) = lit "Error: File not found at " ++ file_path
  /\ render (FileFailed (exc_str e))
     = lit "An error occurred while processing the file: " ++ exc_str e.
Proof.
  intros Hopen He. repeat split.
  rewrite main_with_file, Hopen. unfold main_clauses.
  destruct (isinstance e FileNotFoundError); [reflexivity|].
  rewrite He. reflexivity.
Qed.


(** X12. When the transport raises an [HTTPError] without a response, the
    failure of the handler inside the lint call surfaces at the command
    line as a file-processing error about a missing [status_code]; nothing
    reaches standard output. *)
Theorem main_reports_handler_failure prog file_path rest script_content e w :
  open_read file_path = Return script_content ->
  strip script_content <> [] ->
  requests_post (outbound script_content DEFAULT_USER_AGENT) = Raise e ->
  isinstance e HTTPError = true ->
  exc_response e = None ->
  main (prog :: file_path :: rest) w
  = (Return tt,
     reported (sent w (outbound script_content DEFAULT_USER_AGENT))
       (FileFailed (lit "'NoneType' object has no attribute 'status_code'"))).
Proof.
  intros Hopen Hs Hpost Hh Hr.
  rewrite main_with_file, Hopen, lint_valid by exact Hs. cbv zeta.
  rewrite Hpost. unfold bind, except_clauses. rewrite Hh, Hr. reflexivity.
Qed.

(** The clauses of the entry point print at most one line to the error
    stream and touch nothing else. *)
Lemma main_clauses_shape file_path e w :
  exists errors,
    snd (main_clauses file_path e w) = extended w errors []
    /\ (length errors <= 1)%nat.
Proof.
  unfold main_clauses.
  destruct (isinstance e FileNotFoundError);
    [|destruct (isinstance e Exception)].
  - eexists [_]. split; [apply reported_extended|cbn; lia].
  - eexists [_]. split; [apply reported_extended|cbn; lia].
  - exists []. split; [|cbn; lia]. cbn. unfold extended.
    rewrite !app_nil_r. now destruct w.
Qed.

(** X13. What a run sends: one request, built from the whole content of
    the file and the default identity, when the file was read and is not
    blank; nothing in every other case. *)
Theorem main_network argv w :
  network (snd (main argv w))
  = network w ++
    match argv with
    | _ :: file_path :: _ =>
        match open_read file_path with
        | Return script_content =>
            if str_truthy (strip script_content)
            then [outbound script_content DEFAULT_USER_AGENT] else []
        | Raise _ => []
        end
    | _ => []
    end.
Proof.
  destruct argv as [|prog [|file_path rest]];
    try (cbn; now rewrite app_nil_r).
  rewrite main_with_file.
  destruct (open_read file_path) as [script_content|e].
  - rewrite <- lint_network.
    destruct (lint_pine_script _ _ w) as [[lint_result|e] w1]; cbn [snd].
    + destruct (truthy lint_result); reflexivity.
    + destruct (main_clauses_shape file_path e w1) as (errors & -> & _).
      cbn. now rewrite app_nil_r.
  - destruct (main_clauses_shape file_path e w) as (errors & -> & _).
    cbn. now rewrite !app_nil_r.
Qed.

(** The block prints at most one line in all: either the dumped result on
    standard output or one diagnostic on the error stream, never both. *)
Lemma main_one_line argv w :
  exists out errors,
    stdout (snd (main argv w)) = stdout w ++ out
    /\ stderr (snd (main argv w)) = stderr w ++ errors
    /\ (length out + length errors <= 1)%nat.
Proof.
  destruct argv as [|prog [|file_path rest]];
    try (exists [], [render Usage]; cbn; rewrite app_nil_r;
         repeat split; lia).
  rewrite main_with_file.
  destruct (open_read file_path) as [script_content|e].
  - destruct (lint_shape (PyStr script_content) DEFAULT_USER_AGENT w)
      as (errors & requests & Hw & Herr & _ & Hnone & Hraise).
    destruct (lint_pine_script _ _ w) as [[lint_result|e] w1];
      cbn [fst snd] in *; subst w1.
    + destruct (truthy lint_result) eqn:Etruthy.
      * destruct errors as [|line errors].
        -- eexists [_], []. cbn. rewrite !app_nil_r. repeat split; lia.
        -- assert (Hr : Return lint_result = Return PyNone)
             by (apply Hnone; discriminate).
           injection Hr as ->. discriminate Etruthy.
      * exists [], errors. cbn. rewrite app_nil_r. repeat split; lia.
    + rewrite (Hraise e eq_refl).
      destruct (main_clauses_shape file_path e (extended w [] requests))
        as (errors' & -> & Herr').
      exists [], errors'. cbn. rewrite !app_nil_r. repeat split; lia.
  - destruct (main_clauses_shape file_path e w) as (errors' & -> & Herr').
    exists [], errors'. cbn. rewrite !app_nil_r. repeat split; lia.
Qed.

(** ** The whole script *)

(** The block returns [None] whenever it returns. *)
Lemma run_linter_after_block argv w :
  run_linter argv w =
  match main argv w with
  | (Return _, w') => (Raise EOF_undefined, w')
  | (Raise e, w') => (Raise e, w')
  end.
Proof.
  unfold run_linter, bind, raise.
  destruct (main argv w) as [[[]|e] w']; reflexivity.
Qed.

(** X10. When reading the file raises an exception deriving from
    [Exception], the lint call is not attempted: no request is sent, and the
    module prints one line, which names the path for a [FileNotFoundError]
    and shows the text of any other such exception.  The run then ends with
    the [NameError] of the last line of the file. *)
Theorem run_linter_unreadable_file prog file_path rest e w :
  open_read file_path = Raise e ->
  isinstance e Exception = true ->
  run_linter (prog :: file_path :: rest) w
  = (Raise EOF_undefined,
     reported w (if isinstance e FileNotFoundError
                 then FileMissing file_path else FileFailed (exc_str e)))
  /\ render (FileMissing file_path) = lit "Error: File not found at " ++ file_path
  /\ render (FileFailed (exc_str e))
     = lit "An error occurred while processing the file: " ++ exc_str e.
Proof.
  intros Hopen He.
  destruct (main_unreadable_file prog file_path rest e w Hopen He)
    as (Hmain & Hmissing & Hfailed).
  repeat split; try assumption.
  rewrite run_linter_after_block, Hmain. reflexivity.
Qed.


(** X15. Up to the exception that ends the run, the module has printed at
    most one line in all: either the dumped result on standard output or one
    diagnostic on the error stream, never both. *)
Theorem run_linter_one_line argv w :
  exists e w' out errors,
    run_linter argv w = (Raise e, w')
    /\ stdout w' = stdout w ++ out
    /\ stderr w' = stderr w ++ errors
    /\ (length out + length errors <= 1)%nat.
Proof.
  destruct (main_one_line argv w) as (out & errors & Hout & Herr & Hlen).
  rewrite run_linter_after_block.
  destruct (main argv w) as [[[]|e] w']; cbn [snd] in Hout, Herr.
  - exists EOF_undefined, w', out, errors. repeat split; assumption.
  - exists e, w', out, errors. repeat split; assumption.
Qed.

End Coverage.

(** * Every path on concrete inputs *)

Lemma lint_result_sound_witness :
  exists script response,
    PyStr a_script = PyStr script /\ strip script <> []
    /\ @requests_post (simulated (answering ok_response))
         (outbound script DEFAULT_USER_AGENT) = Return response
    /\ (status_code response < 400 \/ 600 <= status_code response)
    /\ declares_json response = true
    /\ @Response_json (simulated (answering ok_response)) response
       = inl ok_document
    /\ sent empty_world the_request
       = sent empty_world (outbound script DEFAULT_USER_AGENT).
Proof.
  apply (@lint_result_sound (simulated (answering ok_response))
           (PyStr a_script) DEFAULT_USER_AGENT empty_world ok_document
           (sent empty_world the_request)).
  - vm_compute. reflexivity.
  - discriminate.
Defined.


Lemma lint_reports_decode_error_without_response_witness :
  @lint_pine_script (simulated (failing stray_decode_error))
    (PyStr a_script) DEFAULT_USER_AGENT empty_world
  = (Return PyNone,
     reported (sent empty_world the_request)
       (JsonDecode (exc_str stray_decode_error) (lit "N/A")))
  /\ render (JsonDecode (exc_str stray_decode_error) (lit "N/A"))
     = lit "JSON decode error during linting: " ++ exc_str stray_decode_error
       ++ lit ". Response text: N/A".
Proof.
  apply (@lint_reports_decode_error_without_response
           (simulated (failing stray_decode_error))
           a_script DEFAULT_USER_AGENT stray_decode_error empty_world).
  - vm_compute. discriminate.
  - reflexivity.
  - vm_compute. reflexivity.
Defined.

Lemma lint_reports_request_exception_witness :
  @lint_pine_script (simulated (failing too_many_redirects))
    (PyStr a_script) DEFAULT_USER_AGENT empty_world
  = (Return PyNone,
     reported (sent empty_world the_request)
       (RequestFailed (exc_str too_many_redirects)))
  /\ render (RequestFailed (exc_str too_many_redirects))
     = lit "Request exception during linting: " ++ exc_str too_many_redirects.
Proof.
  apply (@lint_reports_request_exception
           (simulated (failing too_many_redirects))
           a_script DEFAULT_USER_AGENT too_many_redirects empty_world).
  - vm_compute. discriminate.
  - reflexivity.
  - vm_compute. reflexivity.
  - vm_compute. reflexivity.
  - vm_compute. reflexivity.
Defined.

Lemma lint_rejects_undeclared_content_type_witness :
  @lint_pine_script (simulated (answering untyped_response))
    (PyStr a_script) DEFAULT_USER_AGENT empty_world
  = (Return PyNone,
     reported (sent empty_world the_request)
       (BadContentType None (slice_to 200 (text untyped_response))))
  /\ render (BadContentType None (slice_to 200 (text untyped_response)))
     = lit "Error: Unexpected content type 'None'. Response text: "
       ++ slice_to 200 (text untyped_response).
Proof.
  apply (@lint_rejects_undeclared_content_type
           (simulated (answering untyped_response))
           a_script DEFAULT_USER_AGENT untyped_response empty_world).
  - vm_compute. discriminate.
  - reflexivity.
  - left. cbn. lia.
  - vm_compute. reflexivity.
Defined.

Lemma http_error_line_bounded_witness :
  exists line,
    stderr (snd (@lint_pine_script (simulated (answering unavailable_response))
                   (PyStr a_script) DEFAULT_USER_AGENT empty_world))
    = stderr empty_world ++ [line]
    /\ (length line <= 233)%nat.
Proof.
  apply (@http_error_line_bounded (simulated (answering unavailable_response))
           a_script DEFAULT_USER_AGENT unavailable_response empty_world).
  - vm_compute. discriminate.
  - reflexivity.
  - cbn. lia.
Defined.

Lemma main_usage_witness :
  @main (simulated (answering ok_response)) [program] empty_world
  = (Return tt, reported empty_world Usage)
  /\ render Usage = lit "Usage: python run_linter.py <path_to_pine_script_file>".
Proof.
  apply (@main_usage (simulated (answering ok_response)) [program] empty_world).
  cbn. lia.
Defined.

Lemma run_linter_unreadable_file_witness :
  @run_linter (locked (answering ok_response)) [program; a_path] empty_world
  = (Raise EOF_undefined,
     reported empty_world
       (if isinstance permission_denied FileNotFoundError
        then FileMissing a_path else FileFailed (exc_str permission_denied)))
  /\ render (FileMissing a_path) = lit "Error: File not found at " ++ a_path
  /\ render (FileFailed (exc_str permission_denied))
     = lit "An error occurred while processing the file: "
       ++ exc_str permission_denied.
Proof.
  apply (@run_linter_unreadable_file (locked (answering ok_response))
           program a_path [] permission_denied empty_world).
  - reflexivity.
  - vm_compute. reflexivity.
Defined.

(** A path that does not exist is named in the message. *)
Example main_missing_file :
  @main (simulated (answering ok_response))
    [program; lit "nowhere.pine"] empty_world
  = (Return tt, reported empty_world (FileMissing (lit "nowhere.pine"))).
Proof. vm_compute. reflexivity. Qed.

(** A successful run prints the document and then stops on the last line
    of the file; an interrupted one stops on the interrupt. *)
Example run_linter_ends_on_EOF :
  @run_linter (simulated (answering ok_response)) [program; a_path] empty_world
  = (Raise EOF_undefined,
     printed (sent empty_world the_request) (dumping ok_document 4)).
Proof. vm_compute. reflexivity. Qed.

Example run_linter_interrupted :
  @run_linter (simulated (failing interrupt)) [program; a_path] empty_world
  = (Raise interrupt, sent empty_world the_request).
Proof. vm_compute. reflexivity. Qed.

Lemma main_reports_handler_failure_witness :
  @main (simulated (failing bare_http_error)) [program; a_path] empty_world
  = (Return tt,
     reported (sent empty_world the_request)
       (FileFailed (lit "'NoneType' object has no attribute 'status_code'"))).
Proof.
  apply (@main_reports_handler_failure (simulated (failing bare_http_error))
           program a_path [] a_script bare_http_error empty_world).
  - reflexivity.
  - vm_compute. discriminate.
  - reflexivity.
  - vm_compute. reflexivity.
  - reflexivity.
Defined.
